(** * Health route and request wrapper of relivator-docker-frontend

    A shallow embedding of [src/server/health.ts] (two revisions of it:
    [part_000], which also exports [checkBackendHealth], and [part_001]) and
    of the route [src/app/api/health/route.ts].

    The code is asynchronous and effectful: it reads the clock
    ([new Date()]), writes log lines, issues HTTP requests and throws.  All of
    it runs in a small state-and-exception monad [M] over a [world] that holds
    the clock, the lines written to the process output streams, the URLs
    fetched so far and the replies the network gives to successive fetches.
    A thrown JavaScript value is a [thrown]; [Raise] is a rejected promise or
    a synchronous [throw], which [await] and [try]/[catch] treat alike. *)

From Stdlib Require Import ZArith String List Bool Lia.
Import ListNotations.
Open Scope string_scope.
Open Scope Z_scope.

(* ------------------------------------------------------------------ *)
(** ** Thrown values *)

(** The class a value was built from, as far as [instanceof] can tell:
    anything that is not an [Error] (plain objects, strings, numbers) is
    [JsPlain]; [ZodError] and [ApiError] both extend [Error]. *)
Inductive jsclass :=
| JsPlain
| JsError
| JsRangeError
| JsTypeError
| JsZodError
| JsApiError.

(** The value of an own or inherited property: a string, or anything else. *)
Inductive jsprop :=
| PropString (s : string)
| PropOther.

(** A value held by a field of a zod issue.  Besides strings, numbers,
    booleans and [null] it may be a [bigint] ([too_small.minimum] and
    [too_big.maximum] of [z.bigint()] checks), an object (the [params] of a
    [custom] issue), or an object that refers to itself. *)
#[warnings="-register-all"]
Inductive issue_value :=
| IVString (s : string)
| IVNumber (z : Z)
| IVBool (b : bool)
| IVNull
| IVBigInt (n : Z)
| IVObject (fields : list (string * issue_value))
| IVCircular.

(** [ZodIssue]: the validation library's issue object, passed through
    unchanged: [code], [path] and [message], then the fields specific to
    its code ([minimum], [inclusive], [expected], [params], ...), in
    order. *)
Record ZodIssue := mkZodIssue {
  issue_code : string;
  issue_path : list string;
  issue_message : string;
  issue_fields : list (string * issue_value)
}.

(** A thrown value.  [th_digest] is [None] when ["digest" in e] is false;
    any object may carry a [digest] property, whatever its class.
    [th_status] is the [status] field of an [ApiError] and [th_issues] the
    [issues] of a [ZodError]; other classes do not read them. *)
Record thrown := mkThrown {
  th_class : jsclass;
  th_digest : option jsprop;
  th_message : string;
  th_status : Z;
  th_issues : list ZodIssue
}.

Definition instanceof_Error (e : thrown) : bool :=
  match th_class e with
  | JsPlain => false
  | _ => true
  end.

Definition instanceof_ZodError (e : thrown) : bool :=
  match th_class e with
  | JsZodError => true
  | _ => false
  end.

(** [e instanceof ApiError] *)
Definition isApiError (e : thrown) : bool :=
  match th_class e with
  | JsApiError => true
  | _ => false
  end.

(** [isNextJsError]: [e instanceof Error && "digest" in e &&
    typeof e.digest === "string" && e.digest.startsWith("NEXT_")]. *)
Definition isNextJsError (e : thrown) : bool :=
  instanceof_Error e &&
  match th_digest e with
  | Some (PropString d) => String.prefix "NEXT_" d
  | _ => false
  end.

(** [new ApiError(message?)]: the class field [status = 500] and
    [super(message ?? "Internal Error")]. *)
Definition new_ApiError (message : option string) : thrown :=
  {| th_class := JsApiError;
     th_digest := None;
     th_message := match message with Some m => m | None => "Internal Error" end;
     th_status := 500;
     th_issues := [] |}.

(** [new ZodError(issues)] *)
Definition new_ZodError (issues : list ZodIssue) : thrown :=
  {| th_class := JsZodError; th_digest := None; th_message := "";
     th_status := 0; th_issues := issues |}.

(** A plain [Error] with a message. *)
Definition new_Error (message : string) : thrown :=
  {| th_class := JsError; th_digest := None; th_message := message;
     th_status := 0; th_issues := [] |}.

(** The same value with a [digest] property set on it. *)
Definition with_digest (e : thrown) (d : string) : thrown :=
  {| th_class := th_class e; th_digest := Some (PropString d);
     th_message := th_message e; th_status := th_status e;
     th_issues := th_issues e |}.

(** The same [ApiError] after [e.status = s]. *)
Definition with_status (e : thrown) (s : Z) : thrown :=
  {| th_class := th_class e; th_digest := th_digest e;
     th_message := th_message e; th_status := s;
     th_issues := th_issues e |}.

(* ------------------------------------------------------------------ *)
(** ** Configuration, requests, responses *)

(** The process configuration: [env.NODE_ENV], [env.NEXT_PUBLIC_BACKEND_URL]
    (from [~/env.mjs]) and [process.env.VERCEL_GIT_COMMIT_SHA]. *)
Record Env := mkEnv {
  NODE_ENV : string;
  NEXT_PUBLIC_BACKEND_URL : string;
  VERCEL_GIT_COMMIT_SHA : option string
}.

(** The parts of a [NextRequest] the wrapper reads: [request.method] and
    [request.nextUrl.pathname]. *)
Record request := mkRequest {
  method : string;
  pathname : string
}.

(** [ApiResponse<T> = ApiResponseSuccess<T> | ApiResponseError]:
    [{ ok: true, data }] or [{ ok: false, error, issues? }]. *)
Inductive ApiResponse (T : Type) :=
| ApiOk (data : T)
| ApiErr (error : string) (issues : option (list ZodIssue)).
Arguments ApiOk {T} data.
Arguments ApiErr {T} error issues.

(** A [NextResponse<ApiResponse<T>>]: its status and its JSON body. *)
Record response (T : Type) := mkResponse {
  status : Z;
  body : ApiResponse T
}.
Arguments mkResponse {T} status body.
Arguments status {T} r.
Arguments body {T} r.

(* ------------------------------------------------------------------ *)
(** ** The world and the monad *)

(** One line written by [logger] or [console].  Each constructor stands for
    one template of the source:
    - [Incoming m u]: [`\n ➡️  ${method} ${url} checking...`] (part_001) or
      [`\n ✓ ${method} ${url} Frontend is healthy`] (part_000);
    - [Completed m u s ms]: [` ... ${method} ${url} (${response.status})
      took ${responseTime}ms`];
    - [BackendVerdict ok m u v]: [` ${backendStatusIcon} ${method} ${url}
      ${backendHealth}\n`], [ok] for the icon ["✓"] (else ["x"]);
    - [Unhandled err]: [logger.error("Unhandled API Error", err)];
    - [ProbeFailed err]: [console.error("Error checking backend health:",
      error)];
    - [FrontendProbeFailed err]: [console.error("Error checking frontend
      health:", error)]. *)
Inductive logentry :=
| Incoming (m u : string)
| Completed (m u : string) (st : Z) (ms : Z)
| BackendVerdict (icon_ok : bool) (m u verdict : string)
| Unhandled (err : thrown)
| ProbeFailed (err : thrown)
| FrontendProbeFailed (err : thrown).

Inductive severity := Info | Error.

Record logline := Line {
  sev : severity;
  entry : logentry
}.

(** What the network answers to one fetch: a response with an HTTP status
    (after redirects), or a transport failure (DNS, refused connection,
    invalid URL, ...) that [fetch] rejects with; each after some
    milliseconds. *)
Inductive net_reply :=
| NetStatus (st : Z) (latency : Z)
| NetFail (err : thrown) (latency : Z).

Record world := mkWorld {
  now : Z;                        (** [new Date().getTime()] *)
  out : list logline;             (** lines written to stdout/stderr *)
  fetched : list string;          (** URLs requested, in order *)
  net : nat -> net_reply          (** reply to the n-th fetch *)
}.

Definition emit (w : world) (l : logline) : world :=
  {| now := now w; out := out w ++ [l]; fetched := fetched w; net := net w |}.

Definition advance (w : world) (d : Z) : world :=
  {| now := now w + d; out := out w; fetched := fetched w; net := net w |}.

Definition record_fetch (w : world) (url : string) : world :=
  {| now := now w; out := out w; fetched := fetched w ++ [url]; net := net w |}.

Inductive outcome (A : Type) :=
| Ret (a : A)
| Raise (e : thrown).
Arguments Ret {A} a.
Arguments Raise {A} e.

Definition M (A : Type) : Type := world -> outcome A * world.

Definition ret {A} (a : A) : M A := fun w => (Ret a, w).

Definition raise {A} (e : thrown) : M A := fun w => (Raise e, w).

Definition bind {A B} (m : M A) (f : A -> M B) : M B :=
  fun w => match m w with
           | (Ret a, w') => f a w'
           | (Raise e, w') => (Raise e, w')
           end.

(** [try { m } catch (e) { h(e) }] *)
Definition try_catch {A} (m : M A) (h : thrown -> M A) : M A :=
  fun w => match m w with
           | (Raise e, w') => h e w'
           | r => r
           end.

(** [new Date().getTime()] *)
Definition get_time : M Z := fun w => (Ret (now w), w).

Notation "x <- m ;; k" := (bind m (fun x => k))
  (at level 61, m at next level, right associativity).
Notation "m ;;; k" := (bind m (fun _ => k))
  (at level 61, right associativity).

(* ------------------------------------------------------------------ *)
(** ** Logging *)

(** [const logger = env.NODE_ENV === "test" ? { info: () => {}, error:
    () => {}, ... } : console]: in test mode every method does nothing,
    otherwise it writes the line. *)
Definition logger (env : Env) (s : severity) (e : logentry) : M unit :=
  fun w => if String.eqb (NODE_ENV env) "test"
           then (Ret tt, w)
           else (Ret tt, emit w (Line s e)).

(** [console.error(...)]: always writes. *)
Definition console_error (e : logentry) : M unit :=
  fun w => (Ret tt, emit w (Line Error e)).

(* ------------------------------------------------------------------ *)
(** ** Framework and transport primitives *)

(** [NextResponse.json(body, init)] builds a [Response] with
    [Response.json], which first serializes [body] with [JSON.stringify]
    (see [body_json_error] below); the Fetch standard's [Response]
    constructor (undici in Node) then converts
    [init.status] (default 200) to an [unsigned short], throws a
    [RangeError] when it is outside 200..599 and a [TypeError] when it is a
    null-body status (204, 205, 304) while the body is not null. *)
Definition null_body_status (u : Z) : bool :=
  Z.eqb u 204 || Z.eqb u 205 || Z.eqb u 304.

Definition range_error : thrown :=
  {| th_class := JsRangeError; th_digest := None;
     th_message := "init status must be in the range of 200 to 599, inclusive.";
     th_status := 0; th_issues := [] |}.

Definition null_body_error : thrown :=
  {| th_class := JsTypeError; th_digest := None;
     th_message := "Response constructor: Invalid response status code";
     th_status := 0; th_issues := [] |}.

(** The statuses the [Response] constructor accepts with a non-null body. *)
Definition status_accepted (s : Z) : bool :=
  let u := s mod 65536 in
  (200 <=? u) && (u <=? 599) && negb (null_body_status u).

(** [JSON.stringify] throws a [TypeError] on a [bigint] and on a circular
    structure. *)
Definition bigint_error : thrown :=
  {| th_class := JsTypeError; th_digest := None;
     th_message := "Do not know how to serialize a BigInt";
     th_status := 0; th_issues := [] |}.

Definition circular_error : thrown :=
  {| th_class := JsTypeError; th_digest := None;
     th_message := "Converting circular structure to JSON";
     th_status := 0; th_issues := [] |}.

(** The error [JSON.stringify] throws at the first value, in serialization
    order, that it cannot serialize. *)
Fixpoint value_json_error (v : issue_value) : option thrown :=
  match v with
  | IVBigInt _ => Some bigint_error
  | IVCircular => Some circular_error
  | IVObject fields =>
      (fix fields_error (fs : list (string * issue_value)) : option thrown :=
         match fs with
         | [] => None
         | (_, x) :: rest =>
             match value_json_error x with
             | Some e => Some e
             | None => fields_error rest
             end
         end) fields
  | _ => None
  end.

Definition issue_json_error (i : ZodIssue) : option thrown :=
  value_json_error (IVObject (issue_fields i)).

Fixpoint issues_json_error (issues : list ZodIssue) : option thrown :=
  match issues with
  | [] => None
  | i :: rest =>
      match issue_json_error i with
      | Some e => Some e
      | None => issues_json_error rest
      end
  end.

Definition issues_serializable (issues : list ZodIssue) : bool :=
  match issues_json_error issues with
  | None => true
  | Some _ => false
  end.

(** The error serializing a body throws.  The [data] of an [ApiOk] body is
    not inspected: the only [ApiOk] body of the repository (the health
    route's) holds two strings. *)
Definition body_json_error {T} (b : ApiResponse T) : option thrown :=
  match b with
  | ApiOk _ => None
  | ApiErr _ None => None
  | ApiErr _ (Some issues) => issues_json_error issues
  end.

(** [Response.json(data, init)] serializes [data] first, then checks
    [init.status]. *)
Definition NextResponse_json {T} (b : ApiResponse T) (init_status : option Z)
  : M (response T) :=
  match body_json_error b with
  | Some e => raise e
  | None =>
      let s := match init_status with Some s => s | None => 200 end in
      let u := s mod 65536 in
      if negb ((200 <=? u) && (u <=? 599)) then raise range_error
      else if null_body_status u then raise null_body_error
      else ret (mkResponse u b)
  end.

(** The [Response] of [node-fetch]: its [ok] is
    [this.status >= 200 && this.status < 300]. *)
Record fetch_response := mkFetchResponse { fr_status : Z }.

Definition fr_ok (r : fetch_response) : bool :=
  (200 <=? fr_status r) && (fr_status r <? 300).

(** [await fetch(url, { method: "GET", headers: ... })]: one request, which
    the world answers with its next reply. *)
Definition fetch (url : string) : M fetch_response :=
  fun w =>
    let reply := net w (length (fetched w)) in
    let w1 := record_fetch w url in
    match reply with
    | NetStatus st lat => (Ret (mkFetchResponse st), advance w1 lat)
    | NetFail err lat => (Raise err, advance w1 lat)
    end.

(* ------------------------------------------------------------------ *)
(** ** [buildErrorResponse] (identical in part_000 and part_001) *)

Definition buildErrorResponse {T} (env : Env) (err : thrown)
  : M (response T) :=
  if isNextJsError err then raise err
  else if instanceof_ZodError err then
    NextResponse_json (ApiErr "Validation Error" (Some (th_issues err)))
                      (Some 400)
  else if isApiError err then
    NextResponse_json (ApiErr (th_message err) None) (Some (th_status err))
  else
    logger env Error (Unhandled err) ;;;
    NextResponse_json (ApiErr "Internal server error" None) (Some 500).

(* ------------------------------------------------------------------ *)
(** ** [checkBackendHealth] (part_000) *)

Definition checkBackendHealth (env : Env) : M string :=
  try_catch
    (let backendUrl := NEXT_PUBLIC_BACKEND_URL env ++ "/backend-health" in
     r <- fetch backendUrl ;;
     if fr_ok r then ret "Backend is healthy" else ret "Backend is unhealthy")
    (fun error =>
       console_error (ProbeFailed error) ;;;
       ret "Backend is unhealthy").

(* ------------------------------------------------------------------ *)
(** ** The wrapper [handler] *)

(** A [NextRouteHandler<ApiResponse<T>, U>]. *)
Definition NextRouteHandler (T U : Type) : Type :=
  request -> U -> M (response T).

Module Part001.

(** [handler(routeHandler)]: [const startTime = new Date()] runs when the
    route is wrapped; [handler_body env startTime routeHandler] is the
    returned [async (request, context) => ...] closure, which each request
    invokes. *)
Definition handler_body {T U} (env : Env) (startTime : Z)
  (routeHandler : NextRouteHandler T U) : NextRouteHandler T U :=
  fun (request : request) (context : U) =>
    let m := method request in
    let url := pathname request in
    logger env Info (Incoming m url) ;;;
    response <- try_catch (routeHandler request context)
                          (buildErrorResponse env) ;;
    t <- get_time ;;
    let responseTime := t - startTime in
    logger env Info (Completed m url (status response) responseTime) ;;;
    ret response.

Definition handler {T U} (env : Env) (routeHandler : NextRouteHandler T U)
  : M (NextRouteHandler T U) :=
  startTime <- get_time ;;
  ret (handler_body env startTime routeHandler).

End Part001.

Module Part000.

Definition handler_body {T U} (env : Env) (startTime : Z)
  (routeHandler : NextRouteHandler T U) : NextRouteHandler T U :=
  fun (request : request) (context : U) =>
    let m := method request in
    let url := pathname request in
    logger env Info (Incoming m url) ;;;
    response <- try_catch (routeHandler request context)
                          (buildErrorResponse env) ;;
    t <- get_time ;;
    let responseTime := t - startTime in
    logger env Info (Completed m url (status response) responseTime) ;;;
    backendHealth <- checkBackendHealth env ;;
    let icon_ok := String.eqb backendHealth "Backend is healthy" in
    logger env Info (BackendVerdict icon_ok m url backendHealth) ;;;
    ret response.

Definition handler {T U} (env : Env) (routeHandler : NextRouteHandler T U)
  : M (NextRouteHandler T U) :=
  startTime <- get_time ;;
  ret (handler_body env startTime routeHandler).

End Part000.

(* ------------------------------------------------------------------ *)
(** ** The route [GET /api/health] *)

Module HealthRoute.

Record ResponseData := mkResponseData {
  frontendHealth : string;
  backendHealth : string
}.

(** [process.env.VERCEL_GIT_COMMIT_SHA ?? "local"] *)
Definition gitSha (env : Env) : string :=
  match VERCEL_GIT_COMMIT_SHA env with
  | Some s => s
  | None => "local"
  end.

(** The inner route handler (it reads neither request nor context).
    [gitSha.substring(0, 7)] is [substring 0 7]; the identifier is ASCII. *)
Definition route {U} (env : Env) : NextRouteHandler ResponseData U :=
  fun _ _ =>
    bh <- checkBackendHealth env ;;
    NextResponse_json
      (ApiOk {| backendHealth := bh;
                frontendHealth := substring 0 7 (gitSha env) |})
      None.

(** [export const GET = handler<ResponseData>(async () => ...)], with the
    [handler] of [~/server/health] that exports [checkBackendHealth]
    (part_000). *)
Definition GET {U} (env : Env) : M (NextRouteHandler ResponseData U) :=
  Part000.handler env (route env).

End HealthRoute.

(* ------------------------------------------------------------------ *)
(** ** [checkFrontendHealth] (part_000, not exported) *)

(** A JSON value as [JSON.parse] yields it; an object is its list of
    members in source order. *)
#[warnings="-register-all"]
Inductive json :=
| JNull
| JBool (b : bool)
| JNum (z : Z)
| JStr (s : string)
| JArr (items : list json)
| JObj (members : list (string * json)).

(** A JavaScript value read from parsed JSON: [undefined] or a JSON value. *)
Inductive jsvalue :=
| Undefined
| JVal (j : json).

(** The body of a fetched response, as [await response.json()] sees it:
    JSON text, or text that does not parse ([response.json()] rejects with
    a [SyntaxError]). *)
Inductive body_reply :=
| BodyJson (j : json)
| BodyInvalid (err : thrown).

(** [JSON.parse] keeps the last of duplicate keys. *)
Fixpoint member_last (k : string) (members : list (string * json)) : option json :=
  match members with
  | [] => None
  | (k', v) :: rest =>
      match member_last k rest with
      | Some v' => Some v'
      | None => if String.eqb k k' then Some v else None
      end
  end.

Definition null_property_error : thrown :=
  {| th_class := JsTypeError; th_digest := None;
     th_message := "Cannot read properties of null (reading frontend_health)";
     th_status := 0; th_issues := [] |}.

(** [data.frontend_health]: a member of an object; [undefined] on other
    non-null values (booleans, numbers, strings and arrays have no such
    property); a [TypeError] on [null]. *)
Definition read_frontend_health (data : json) : M jsvalue :=
  match data with
  | JNull => raise null_property_error
  | JObj members =>
      ret (match member_last "frontend_health" members with
           | Some v => JVal v
           | None => Undefined
           end)
  | _ => ret Undefined
  end.

(** [await fetch(url, ...)] together with the body of the reply, the n-th
    fetch getting [bodies n]. *)
Definition fetch_with_body (bodies : nat -> body_reply) (url : string)
  : M (fetch_response * body_reply) :=
  fun w =>
    let n := length (fetched w) in
    match fetch url w with
    | (Ret r, w') => (Ret (r, bodies n), w')
    | (Raise e, w') => (Raise e, w')
    end.

(** [await response.json()] *)
Definition response_json (b : body_reply) : M json :=
  match b with
  | BodyJson j => ret j
  | BodyInvalid e => raise e
  end.

(** [checkFrontendHealth]: the result is typed [boolean] but is whatever
    [frontend_health] holds; [response.ok] is not consulted. *)
Definition checkFrontendHealth (env : Env) (bodies : nat -> body_reply)
  : M jsvalue :=
  try_catch
    (let backendUrl := NEXT_PUBLIC_BACKEND_URL env ++ "/frontend-health" in
     rb <- fetch_with_body bodies backendUrl ;;
     data <- response_json (snd rb) ;;
     read_frontend_health data)
    (fun error =>
       console_error (FrontendProbeFailed error) ;;;
       ret (JVal (JBool false))).

(* ------------------------------------------------------------------ *)
(** ** The classifier as the spec describes it (section 4.1)

    [ClassifiedError]: framework control flow, validation failure, known API
    failure, unknown failure, tested in this order, first match wins; and
    the response each class gets. *)

Inductive ClassifiedError :=
| FrameworkControlFlow
| ValidationFailure (issues : list ZodIssue)
| KnownApiFailure (st : Z) (message : string)
| UnknownFailure.

Definition classify (err : thrown) : ClassifiedError :=
  if isNextJsError err then FrameworkControlFlow
  else if instanceof_ZodError err then ValidationFailure (th_issues err)
  else if isApiError err then KnownApiFailure (th_status err) (th_message err)
  else UnknownFailure.

Definition respond_classified {T} (env : Env) (err : thrown)
  (c : ClassifiedError) : M (response T) :=
  match c with
  | FrameworkControlFlow => raise err
  | ValidationFailure issues =>
      NextResponse_json (ApiErr "Validation Error" (Some issues)) (Some 400)
  | KnownApiFailure st message =>
      NextResponse_json (ApiErr message None) (Some st)
  | UnknownFailure =>
      logger env Error (Unhandled err) ;;;
      NextResponse_json (ApiErr "Internal server error" None) (Some 500)
  end.

(* ------------------------------------------------------------------ *)
(** ** Concrete configurations and worlds *)

Definition dev_env : Env :=
  mkEnv "development" "http://backend:8000" (Some "3f9c2ab8d41e07c5").

Definition test_env : Env :=
  mkEnv "test" "http://backend:8000" None.

Definition health_request : request := mkRequest "GET" "/api/health".

(** [FetchError: request to ... failed, reason: connect ECONNREFUSED] *)
Definition econnrefused : thrown :=
  new_Error "request to http://backend:8000/backend-health failed, reason: connect ECONNREFUSED".

Definition backend_up : nat -> net_reply := fun _ => NetStatus 200 3.
Definition backend_down : nat -> net_reply := fun _ => NetFail econnrefused 1.

Definition world_at (t : Z) (replies : nat -> net_reply) : world :=
  mkWorld t [] [] replies.

(** An inner handler that answers [{ ok: true, data: tt }] after [d] ms. *)
Definition slow_ok {U} (d : Z) : NextRouteHandler unit U :=
  fun _ _ w => (Ret (mkResponse 200 (ApiOk tt)), advance w d).

(** An inner handler that throws [err]. *)
Definition throwing {T U} (err : thrown) : NextRouteHandler T U :=
  fun _ _ => raise err.

(** [Error] objects as [notFound()] and [redirect()] of next/navigation
    throw them. *)
Definition not_found_error : thrown :=
  with_digest (new_Error "NEXT_NOT_FOUND") "NEXT_NOT_FOUND".

Example checkBackendHealth_up :
  fst (checkBackendHealth dev_env (world_at 0 backend_up)) = Ret "Backend is healthy".
Proof. reflexivity. Qed.

Example checkBackendHealth_down :
  fst (checkBackendHealth dev_env (world_at 0 backend_down)) = Ret "Backend is unhealthy".
Proof. reflexivity. Qed.

Example GET_up :
  fst (Part000.handler_body dev_env 0 (HealthRoute.route dev_env) health_request tt
         (world_at 10 backend_up))
  = Ret (mkResponse 200 (ApiOk {| HealthRoute.backendHealth := "Backend is healthy";
                                  HealthRoute.frontendHealth := "3f9c2ab" |})).
Proof. reflexivity. Qed.

Example isNextJsError_not_found : isNextJsError not_found_error = true.
Proof. reflexivity. Qed.

(* ------------------------------------------------------------------ *)
(** ** Facts about the primitives *)

Lemma logger_world (env : Env) (s : severity) (e : logentry) (w : world) :
  fst (logger env s e w) = Ret tt /\
  now (snd (logger env s e w)) = now w /\
  fetched (snd (logger env s e w)) = fetched w /\
  net (snd (logger env s e w)) = net w.
Proof. unfold logger; destruct (String.eqb _ _); simpl; auto. Qed.

Lemma logger_eq (env : Env) (s : severity) (e : logentry) (w : world) :
  logger env s e w = (Ret tt, snd (logger env s e w)).
Proof. unfold logger; destruct (String.eqb _ _); reflexivity. Qed.

(** Whatever [JSON.stringify] throws on an issue list is a [TypeError]. *)
Lemma value_json_error_class :
  forall v t, value_json_error v = Some t -> th_class t = JsTypeError.
Proof.
  fix IH 1; intros [s | z | b | | n | fs |] t H; simpl in H; try discriminate.
  - injection H as <-; reflexivity.
  - induction fs as [| [k x] rest IHfs]; [discriminate |].
    destruct (value_json_error x) eqn:E.
    + injection H as <-; exact (IH x _ E).
    + exact (IHfs H).
  - injection H as <-; reflexivity.
Qed.

Lemma issues_json_error_class (is : list ZodIssue) (t : thrown) :
  issues_json_error is = Some t -> th_class t = JsTypeError.
Proof.
  induction is as [| i rest IH]; simpl; [discriminate |].
  unfold issue_json_error.
  destruct (value_json_error (IVObject (issue_fields i))) eqn:E.
  - intros [= <-]; exact (value_json_error_class _ _ E).
  - exact IH.
Qed.

Lemma NextResponse_json_accepted {T} (b : ApiResponse T) (s : Z) (w : world) :
  body_json_error b = None -> status_accepted s = true ->
  NextResponse_json b (Some s) w = (Ret (mkResponse (s mod 65536) b), w).
Proof.
  unfold status_accepted, NextResponse_json; intros Hb H; rewrite Hb.
  apply andb_prop in H as [H1 H2].
  rewrite H1; simpl.
  destruct (null_body_status (s mod 65536)); [discriminate | reflexivity].
Qed.

(** A status in 200..599 is unchanged by the [unsigned short] conversion. *)
Lemma status_mod_small (s : Z) : 200 <= s <= 599 -> s mod 65536 = s.
Proof. intro H; apply Z.mod_small; lia. Qed.

(* ------------------------------------------------------------------ *)
(** ** Health prober *)

(** The verdict the prober derives from the reply to its GET. *)
Definition verdict_of (r : net_reply) : string :=
  match r with
  | NetStatus st _ =>
      if (200 <=? st) && (st <? 300) then "Backend is healthy"
      else "Backend is unhealthy"
  | NetFail _ _ => "Backend is unhealthy"
  end.

(** The world after one probe: the GET is recorded, its latency elapses,
    and a transport failure is written to stderr. *)
Definition probe_world (env : Env) (w : world) : world :=
  let w1 := record_fetch w (String.append (NEXT_PUBLIC_BACKEND_URL env) "/backend-health") in
  match net w (length (fetched w)) with
  | NetStatus _ lat => advance w1 lat
  | NetFail err lat => emit (advance w1 lat) (Line Error (ProbeFailed err))
  end.

Lemma checkBackendHealth_run (env : Env) (w : world) :
  checkBackendHealth env w =
  (Ret (verdict_of (net w (length (fetched w)))), probe_world env w).
Proof.
  unfold checkBackendHealth, probe_world, try_catch, bind, fetch, verdict_of.
  destruct (net w (length (fetched w))) as [st lat | err lat]; simpl;
    [unfold fr_ok; simpl; destruct ((200 <=? st) && (st <? 300)) |]; reflexivity.
Qed.

Lemma probe_world_fetched (env : Env) (w : world) :
  fetched (probe_world env w) =
  (fetched w ++ [String.append (NEXT_PUBLIC_BACKEND_URL env) "/backend-health"])%list /\
  net (probe_world env w) = net w.
Proof.
  unfold probe_world; destruct (net w (length (fetched w))); simpl; auto.
Qed.

(** C4: [checkBackendHealth] issues exactly one GET, to
    [<NEXT_PUBLIC_BACKEND_URL>/backend-health], returns ["Backend is healthy"]
    exactly when the reply has a 2xx status, ["Backend is unhealthy"] for
    every other status and every transport failure, and never raises. *)
Theorem checkBackendHealth_total_verdict (env : Env) (w : world) :
  exists w',
    checkBackendHealth env w = (Ret (verdict_of (net w (length (fetched w)))), w') /\
    fetched w' = (fetched w ++ [String.append (NEXT_PUBLIC_BACKEND_URL env) "/backend-health"])%list /\
    net w' = net w.
Proof.
  exists (probe_world env w); split; [apply checkBackendHealth_run |].
  apply probe_world_fetched.
Qed.

(* ------------------------------------------------------------------ *)
(** ** Running the wrappers *)

Lemma try_catch_ret {A} (m : M A) (h : thrown -> M A) (w : world) a w' :
  m w = (Ret a, w') -> try_catch m h w = (Ret a, w').
Proof. unfold try_catch; intros ->; reflexivity. Qed.

Lemma try_catch_raise {A} (m : M A) (h : thrown -> M A) (w : world) e w' :
  m w = (Raise e, w') -> try_catch m h w = h e w'.
Proof. unfold try_catch; intros ->; reflexivity. Qed.

(** One invocation of part_001's closure: the incoming line, the inner
    handler under [try]/[catch], then the completed line. *)
Lemma Part001_invoke {T U} (env : Env) (st : Z) (rh : NextRouteHandler T U)
  (req : request) (ctx : U) (w : world) :
  Part001.handler_body env st rh req ctx w =
  match try_catch (rh req ctx) (buildErrorResponse env)
          (snd (logger env Info (Incoming (method req) (pathname req)) w)) with
  | (Ret r, w2) =>
      (Ret r, snd (logger env Info
                     (Completed (method req) (pathname req) (status r) (now w2 - st)) w2))
  | (Raise e, w2) => (Raise e, w2)
  end.
Proof.
  unfold Part001.handler_body, bind at 1.
  rewrite logger_eq; simpl.
  unfold bind at 1.
  destruct (try_catch (rh req ctx) (buildErrorResponse env) _) as [[r | e] w2];
    [| reflexivity].
  unfold bind, get_time; rewrite logger_eq; reflexivity.
Qed.

(** part_000's closure runs the same steps as part_001's (lines 125-141 of
    part_000 are those of part_001 but for the text of the incoming line),
    then probes the backend and logs the verdict. *)
Lemma Part000_invoke {T U} (env : Env) (st : Z) (rh : NextRouteHandler T U)
  (req : request) (ctx : U) (w : world) :
  Part000.handler_body env st rh req ctx w =
  match Part001.handler_body env st rh req ctx w with
  | (Ret r, w1) =>
      let v := verdict_of (net w1 (length (fetched w1))) in
      (Ret r, snd (logger env Info
                     (BackendVerdict (String.eqb v "Backend is healthy")
                        (method req) (pathname req) v)
                     (probe_world env w1)))
  | (Raise e, w1) => (Raise e, w1)
  end.
Proof.
  rewrite Part001_invoke.
  unfold Part000.handler_body, bind at 1.
  rewrite logger_eq; simpl.
  unfold bind at 1.
  destruct (try_catch (rh req ctx) (buildErrorResponse env) _) as [[r | e] w2];
    [| reflexivity].
  unfold bind, get_time; rewrite logger_eq; simpl.
  rewrite checkBackendHealth_run; rewrite logger_eq; reflexivity.
Qed.

(** Wrapping reads the clock once and returns the closure over that time. *)
Lemma Part001_handler_wrap {T U} (env : Env) (rh : NextRouteHandler T U) (w : world) :
  Part001.handler env rh w = (Ret (Part001.handler_body env (now w) rh), w).
Proof. reflexivity. Qed.

Lemma Part000_handler_wrap {T U} (env : Env) (rh : NextRouteHandler T U) (w : world) :
  Part000.handler env rh w = (Ret (Part000.handler_body env (now w) rh), w).
Proof. reflexivity. Qed.

(* ------------------------------------------------------------------ *)
(** ** Error classification *)

Lemma buildErrorResponse_unknown_run {T} (env : Env) (err : thrown) (w : world) :
  isNextJsError err = false -> instanceof_ZodError err = false ->
  isApiError err = false ->
  @buildErrorResponse T env err w =
  (Ret (mkResponse 500 (ApiErr "Internal server error" None)),
   snd (logger env Error (Unhandled err) w)).
Proof.
  intros H1 H2 H3; unfold buildErrorResponse; rewrite H1, H2, H3.
  unfold bind; rewrite logger_eq; reflexivity.
Qed.

(** The inner handler throws [err] as its first step. *)
Lemma Part001_invoke_throwing {T U} (env : Env) (st : Z) (err : thrown)
  (req : request) (ctx : U) (w : world) :
  Part001.handler_body env st (throwing err : NextRouteHandler T U) req ctx w =
  match buildErrorResponse env err
          (snd (logger env Info (Incoming (method req) (pathname req)) w)) with
  | (Ret r, w2) =>
      (Ret r, snd (logger env Info
                     (Completed (method req) (pathname req) (status r) (now w2 - st)) w2))
  | (Raise e, w2) => (Raise e, w2)
  end.
Proof.
  rewrite Part001_invoke; reflexivity.
Qed.

(** C1: [buildErrorResponse] is the spec's first-match-wins chain
    (framework control flow, then validation, then known API error, then
    the unknown fallback); a value that passes the framework check is
    re-raised unchanged, whatever other class it also belongs to, and the
    wrapper then re-raises it too. *)
Theorem buildErrorResponse_first_match {T U} (env : Env) (err : thrown)
  (st : Z) (req : request) (ctx : U) (w : world) :
  @buildErrorResponse T env err w = respond_classified env err (classify err) w /\
  (isNextJsError err = true ->
     classify err = FrameworkControlFlow /\
     @buildErrorResponse T env err w = (Raise err, w) /\
     Part001.handler_body env st (throwing err : NextRouteHandler T U) req ctx w =
       (Raise err, snd (logger env Info (Incoming (method req) (pathname req)) w))).
Proof.
  unfold buildErrorResponse, classify, respond_classified.
  split.
  - destruct (isNextJsError err); [reflexivity |].
    destruct (instanceof_ZodError err); [reflexivity |].
    destruct (isApiError err); reflexivity.
  - intro H; rewrite H; repeat split.
    rewrite Part001_invoke_throwing.
    unfold buildErrorResponse; rewrite H; reflexivity.
Qed.

(** An [ApiError] and a [ZodError] that carry a [NEXT_] digest are
    re-raised, not answered. *)
Example api_error_with_next_digest_reraised :
  let err := with_digest (new_ApiError (Some "Forbidden")) "NEXT_REDIRECT;replace;/login" in
  classify err = FrameworkControlFlow /\
  fst (@buildErrorResponse unit dev_env err (world_at 0 backend_up)) = Raise err.
Proof. split; reflexivity. Qed.

(** C2: a thrown value that is neither a framework signal, nor a
    [ZodError], nor an [ApiError] is answered with status 500 and the fixed
    body [{ ok: false, error: "Internal server error" }] (the same for every
    such value: nothing of it reaches the body), both by the classifier and
    by the wrapper; the classifier passes the value to [logger.error] with
    the label ["Unhandled API Error"], which writes it at error severity
    unless [NODE_ENV] is ["test"]. *)
Theorem unknown_error_internal_server_error {T U} (env : Env) (err : thrown)
  (st : Z) (req : request) (ctx : U) (w : world) :
  isNextJsError err = false -> instanceof_ZodError err = false ->
  isApiError err = false ->
  @buildErrorResponse T env err w =
    (Ret (mkResponse 500 (ApiErr "Internal server error" None)),
     if String.eqb (NODE_ENV env) "test" then w
     else emit w (Line Error (Unhandled err))) /\
  fst (Part001.handler_body env st (throwing err : NextRouteHandler T U) req ctx w) =
    Ret (mkResponse 500 (ApiErr "Internal server error" None)).
Proof.
  intros H1 H2 H3; split.
  - rewrite buildErrorResponse_unknown_run by assumption.
    unfold logger; destruct (String.eqb _ _); reflexivity.
  - rewrite Part001_invoke_throwing.
    rewrite buildErrorResponse_unknown_run by assumption; reflexivity.
Qed.

Lemma unknown_error_internal_server_error_witness :
  (isNextJsError econnrefused = false /\ instanceof_ZodError econnrefused = false /\
   isApiError econnrefused = false) /\
  fst (Part001.handler_body dev_env 0 (throwing econnrefused : NextRouteHandler unit unit)
         health_request tt (world_at 0 backend_up)) =
    Ret (mkResponse 500 (ApiErr "Internal server error" None)).
Proof.
  split; [repeat split |].
  apply (unknown_error_internal_server_error dev_env econnrefused 0 health_request tt
           (world_at 0 backend_up)); reflexivity.
Defined.

Definition sample_issues : list ZodIssue :=
  [ mkZodIssue "invalid_type" ["email"] "Required"
      [("expected", IVString "string"); ("received", IVString "undefined")];
    mkZodIssue "too_small" ["password"] "String must contain at least 8 character(s)"
      [("minimum", IVNumber 8); ("type", IVString "string");
       ("inclusive", IVBool true); ("exact", IVBool false)] ].

(** The issue [z.bigint().min(1n)] reports for [0n]: its [minimum] is a
    [bigint]. *)
Definition bigint_issues : list ZodIssue :=
  [ mkZodIssue "too_small" ["amount"] "Number must be greater than or equal to 1"
      [("minimum", IVBigInt 1); ("type", IVString "bigint");
       ("inclusive", IVBool true); ("exact", IVBool false)] ].

(** C5 fails as stated: a [ZodError] that carries a [NEXT_] digest is a
    framework signal first, so it is re-raised and gets no 400 response;
    and a [ZodError] whose issues hold a [bigint] makes [NextResponse.json]
    throw a [TypeError] while serializing the body, which the wrapper
    raises. *)
Lemma zod_error_with_next_digest_not_answered :
  let err := with_digest (new_ZodError sample_issues) "NEXT_NOT_FOUND" in
  let big := new_ZodError bigint_issues in
  instanceof_ZodError err = true /\
  fst (@buildErrorResponse unit dev_env err (world_at 0 backend_up)) = Raise err /\
  fst (Part001.handler_body dev_env 0 (throwing err : NextRouteHandler unit unit)
         health_request tt (world_at 0 backend_up)) = Raise err /\
  instanceof_ZodError big = true /\ isNextJsError big = false /\
  fst (@buildErrorResponse unit dev_env big (world_at 0 backend_up)) = Raise bigint_error /\
  fst (Part001.handler_body dev_env 0 (throwing big : NextRouteHandler unit unit)
         health_request tt (world_at 0 backend_up)) = Raise bigint_error.
Proof. repeat split. Qed.

(** C5 (amended): a thrown [ZodError] that is not a framework signal and
    whose issues [JSON.stringify] can serialize (no [bigint], no circular
    structure) is answered with status 400 and [{ ok: false, error:
    "Validation Error", issues }], where [issues] is the error's own issue
    list (same length, order and content), by the classifier and by the
    wrapper. *)
Theorem zod_error_validation_response {T U} (env : Env) (err : thrown)
  (st : Z) (req : request) (ctx : U) (w : world) :
  instanceof_ZodError err = true -> isNextJsError err = false ->
  issues_serializable (th_issues err) = true ->
  @buildErrorResponse T env err w =
    (Ret (mkResponse 400 (ApiErr "Validation Error" (Some (th_issues err)))), w) /\
  fst (Part001.handler_body env st (throwing err : NextRouteHandler T U) req ctx w) =
    Ret (mkResponse 400 (ApiErr "Validation Error" (Some (th_issues err)))).
Proof.
  intros Hz Hn Hs.
  assert (E : forall w', @buildErrorResponse T env err w' =
    (Ret (mkResponse 400 (ApiErr "Validation Error" (Some (th_issues err)))), w')).
  { intro w'; unfold buildErrorResponse; rewrite Hn, Hz.
    unfold NextResponse_json; simpl.
    unfold issues_serializable in Hs.
    destruct (issues_json_error (th_issues err)); [discriminate | reflexivity]. }
  split; [apply E |].
  rewrite Part001_invoke_throwing, E; reflexivity.
Qed.

Lemma zod_error_validation_response_witness :
  (instanceof_ZodError (new_ZodError sample_issues) = true /\
   isNextJsError (new_ZodError sample_issues) = false /\
   issues_serializable (th_issues (new_ZodError sample_issues)) = true) /\
  fst (Part001.handler_body dev_env 0
         (throwing (new_ZodError sample_issues) : NextRouteHandler unit unit)
         health_request tt (world_at 0 backend_up)) =
    Ret (mkResponse 400 (ApiErr "Validation Error" (Some sample_issues))).
Proof.
  split; [repeat split |].
  apply (zod_error_validation_response dev_env (new_ZodError sample_issues) 0
           health_request tt (world_at 0 backend_up)); reflexivity.
Defined.

(** An [ApiError] whose [status] was set to 600. *)
Definition api_error_600 : thrown :=
  with_status (new_ApiError (Some "Quota exceeded")) 600.

(** C6 fails as stated: for an [ApiError] with status 600 the
    [Response] constructor throws a [RangeError], so neither the classifier
    nor the wrapper produces a response with that status. *)
Lemma api_error_status_600_no_response :
  isApiError api_error_600 = true /\
  fst (@buildErrorResponse unit dev_env api_error_600 (world_at 0 backend_up))
    = Raise range_error /\
  fst (Part001.handler_body dev_env 0 (throwing api_error_600 : NextRouteHandler unit unit)
         health_request tt (world_at 0 backend_up)) = Raise range_error /\
  isNextJsError (new_ZodError bigint_issues) = false /\
  isNextJsError bigint_error = false /\
  fst (Part001.handler_body dev_env 0
         (throwing (new_ZodError bigint_issues) : NextRouteHandler unit unit)
         health_request tt (world_at 0 backend_up)) = Raise bigint_error.
Proof. repeat split. Qed.

(** C6 (amended): a thrown [ApiError] that is not a framework signal and
    whose status is in 200..599 other than 204, 205 and 304 is answered
    with exactly its status and [{ ok: false, error: message }], by the
    classifier and by the wrapper; [new ApiError(m)] has status 500 and
    message [m], or ["Internal Error"] when [m] is omitted. *)
Theorem api_error_own_status_and_message {T U} (env : Env) (err : thrown)
  (st : Z) (req : request) (ctx : U) (w : world) :
  isApiError err = true -> isNextJsError err = false ->
  200 <= th_status err <= 599 -> null_body_status (th_status err) = false ->
  @buildErrorResponse T env err w =
    (Ret (mkResponse (th_status err) (ApiErr (th_message err) None)), w) /\
  fst (Part001.handler_body env st (throwing err : NextRouteHandler T U) req ctx w) =
    Ret (mkResponse (th_status err) (ApiErr (th_message err) None)) /\
  (forall m, th_status (new_ApiError m) = 500) /\
  (forall m, th_message (new_ApiError (Some m)) = m) /\
  th_message (new_ApiError None) = "Internal Error".
Proof.
  intros Ha Hn Hr Hb.
  assert (Hz : instanceof_ZodError err = false).
  { unfold isApiError in Ha; unfold instanceof_ZodError;
      destruct (th_class err); congruence. }
  assert (Hacc : status_accepted (th_status err) = true).
  { unfold status_accepted; rewrite status_mod_small by exact Hr; rewrite Hb.
    apply andb_true_intro; split; [apply andb_true_intro; split |];
      [apply Z.leb_le | apply Z.leb_le | reflexivity]; lia. }
  assert (E : forall w', @buildErrorResponse T env err w' =
    (Ret (mkResponse (th_status err) (ApiErr (th_message err) None)), w')).
  { intro w'; unfold buildErrorResponse; rewrite Hn, Hz, Ha.
    rewrite NextResponse_json_accepted by first [exact Hacc | reflexivity].
    rewrite status_mod_small by exact Hr; reflexivity. }
  split; [apply E |]; split; [rewrite Part001_invoke_throwing, E; reflexivity |].
  repeat split.
Qed.

Lemma api_error_own_status_and_message_witness :
  let err := with_status (new_ApiError (Some "Unauthorized")) 401 in
  (isApiError err = true /\ isNextJsError err = false /\
   200 <= th_status err <= 599 /\ null_body_status (th_status err) = false) /\
  fst (Part001.handler_body dev_env 0 (throwing err : NextRouteHandler unit unit)
         health_request tt (world_at 0 backend_up)) =
    Ret (mkResponse 401 (ApiErr "Unauthorized" None)).
Proof.
  cbv zeta.
  split; [repeat split; simpl; lia || reflexivity |].
  apply (api_error_own_status_and_message dev_env
           (with_status (new_ApiError (Some "Unauthorized")) 401) 0
           health_request tt (world_at 0 backend_up)); simpl; (lia || reflexivity).
Defined.

(* ------------------------------------------------------------------ *)
(** ** What crosses the wrapper boundary *)

(** C3 fails as stated: an [ApiError] with status 600 is no framework
    signal, yet the wrapper raises (the [Response] constructor's
    [RangeError]) instead of returning a response; so does a [ZodError]
    whose issues hold a [bigint] (the [TypeError] of [JSON.stringify]). *)
Lemma wrapper_raises_for_api_error_600 :
  isNextJsError api_error_600 = false /\
  isNextJsError range_error = false /\
  fst (Part001.handler_body dev_env 0 (throwing api_error_600 : NextRouteHandler unit unit)
         health_request tt (world_at 0 backend_up)) = Raise range_error /\
  isNextJsError (new_ZodError bigint_issues) = false /\
  isNextJsError bigint_error = false /\
  fst (Part001.handler_body dev_env 0
         (throwing (new_ZodError bigint_issues) : NextRouteHandler unit unit)
         health_request tt (world_at 0 backend_up)) = Raise bigint_error.
Proof. repeat split. Qed.

(** C3 (amended): if the inner handler returns, the wrapper returns its
    response; if it throws a framework signal, the wrapper produces no
    response and raises that same value; if it throws any other value, the
    wrapper returns a response, except for an [ApiError] whose status the
    [Response] constructor rejects, for which the wrapper raises the
    constructor's [RangeError] or [TypeError], and for a [ZodError] whose
    issues [JSON.stringify] cannot serialize, for which the wrapper raises
    the [TypeError] of [JSON.stringify]. *)
Theorem wrapper_propagation {T U} (env : Env) (st : Z) (rh : NextRouteHandler T U)
  (req : request) (ctx : U) (w : world) (o : outcome (response T)) (w2 : world) :
  rh req ctx (snd (logger env Info (Incoming (method req) (pathname req)) w)) = (o, w2) ->
  match o with
  | Ret r => exists w3, Part001.handler_body env st rh req ctx w = (Ret r, w3)
  | Raise e =>
      (isNextJsError e = true -> Part001.handler_body env st rh req ctx w = (Raise e, w2)) /\
      (isNextJsError e = false ->
         (isApiError e = true -> status_accepted (th_status e) = true) ->
         (instanceof_ZodError e = true -> issues_serializable (th_issues e) = true) ->
         exists r w3, Part001.handler_body env st rh req ctx w = (Ret r, w3)) /\
      (isNextJsError e = false -> isApiError e = true ->
         status_accepted (th_status e) = false ->
         fst (Part001.handler_body env st rh req ctx w) = Raise range_error \/
         fst (Part001.handler_body env st rh req ctx w) = Raise null_body_error) /\
      (isNextJsError e = false -> instanceof_ZodError e = true ->
         issues_serializable (th_issues e) = false ->
         exists e', fst (Part001.handler_body env st rh req ctx w) = Raise e' /\
                    issues_json_error (th_issues e) = Some e' /\
                    th_class e' = JsTypeError)
  end.
Proof.
  intro Hrh; rewrite Part001_invoke.
  destruct o as [r | e].
  - rewrite (try_catch_ret _ _ _ r w2 Hrh); eexists; reflexivity.
  - rewrite (try_catch_raise _ _ _ e w2 Hrh).
    unfold buildErrorResponse.
    split; [intro Hn; rewrite Hn; reflexivity |]; split; [| split].
    + intros Hn Hacc Hser; rewrite Hn.
      destruct (instanceof_ZodError e) eqn:Hz.
      * specialize (Hser eq_refl); unfold issues_serializable in Hser.
        unfold NextResponse_json, body_json_error.
        destruct (issues_json_error (th_issues e)); [discriminate |].
        do 2 eexists; reflexivity.
      * destruct (isApiError e) eqn:Ha.
        -- rewrite NextResponse_json_accepted by first [reflexivity | apply Hacc; reflexivity].
           do 2 eexists; reflexivity.
        -- unfold bind; rewrite logger_eq; do 2 eexists; reflexivity.
    + intros Hn Ha Hacc; rewrite Hn, Ha.
      assert (Hz : instanceof_ZodError e = false).
      { unfold isApiError in Ha; unfold instanceof_ZodError;
          destruct (th_class e); congruence. }
      rewrite Hz.
      unfold status_accepted in Hacc; unfold NextResponse_json; simpl.
      destruct ((200 <=? th_status e mod 65536) && (th_status e mod 65536 <=? 599));
        simpl in *; [| left; reflexivity].
      rewrite negb_false_iff in Hacc; rewrite Hacc; right; reflexivity.
    + intros Hn Hz Hser; rewrite Hn, Hz.
      unfold issues_serializable in Hser.
      unfold NextResponse_json, body_json_error.
      destruct (issues_json_error (th_issues e)) as [t |] eqn:E; [| discriminate].
      exists t; split; [reflexivity | split; [reflexivity |]].
      exact (issues_json_error_class _ _ E).
Qed.

Lemma wrapper_propagation_witness :
  fst (Part001.handler_body dev_env 0 (throwing not_found_error : NextRouteHandler unit unit)
         health_request tt (world_at 0 backend_up)) = Raise not_found_error.
Proof.
  pose proof (wrapper_propagation dev_env 0
                (throwing not_found_error : NextRouteHandler unit unit)
                health_request tt (world_at 0 backend_up)
                (Raise not_found_error)
                (snd (logger dev_env Info (Incoming "GET" "/api/health")
                        (world_at 0 backend_up))) eq_refl) as [H _].
  rewrite (H eq_refl); reflexivity.
Defined.

(* ------------------------------------------------------------------ *)
(** ** [GET /api/health] end to end *)

(** C7: [GET] wraps the route once; every request is answered with status
    200 and [{ ok: true, data: { backendHealth, frontendHealth } }], where
    [backendHealth] is the verdict on the route's probe (["Backend is
    healthy"] for a 2xx reply, ["Backend is unhealthy"] for any other
    status or an unreachable backend) and [frontendHealth] is the first 7
    characters of [VERCEL_GIT_COMMIT_SHA], or ["local"] when it is unset. *)
Theorem GET_health_end_to_end {U} (env : Env) (w0 : world) :
  exists h, @HealthRoute.GET U env w0 = (Ret h, w0) /\
  forall req ctx w,
    fst (h req ctx w) =
    Ret (mkResponse 200
           (ApiOk {| HealthRoute.backendHealth := verdict_of (net w (length (fetched w)));
                     HealthRoute.frontendHealth :=
                       match VERCEL_GIT_COMMIT_SHA env with
                       | Some sha => substring 0 7 sha
                       | None => "local"
                       end |})).
Proof.
  exists (Part000.handler_body env (now w0) (HealthRoute.route env)).
  split; [reflexivity |].
  intros req ctx w.
  rewrite Part000_invoke, Part001_invoke.
  destruct (logger_world env Info (Incoming (method req) (pathname req)) w)
    as (_ & _ & Hf & Hn).
  set (w1 := snd (logger env Info (Incoming (method req) (pathname req)) w)) in *.
  assert (R : HealthRoute.route env req ctx w1 =
    (Ret (mkResponse 200
           (ApiOk {| HealthRoute.backendHealth := verdict_of (net w (length (fetched w)));
                     HealthRoute.frontendHealth := substring 0 7 (HealthRoute.gitSha env) |})),
     probe_world env w1)).
  { unfold HealthRoute.route, bind; rewrite checkBackendHealth_run, Hf, Hn.
    reflexivity. }
  rewrite (try_catch_ret _ _ _ _ _ R).
  unfold HealthRoute.gitSha; destruct (VERCEL_GIT_COMMIT_SHA env); reflexivity.
Qed.

(** Backend up, and backend refusing connections. *)
Example GET_health_backend_down :
  fst (Part000.handler_body dev_env 0 (HealthRoute.route dev_env) health_request tt
         (world_at 10 backend_down))
  = Ret (mkResponse 200 (ApiOk {| HealthRoute.backendHealth := "Backend is unhealthy";
                                  HealthRoute.frontendHealth := "3f9c2ab" |})).
Proof. reflexivity. Qed.

Example GET_health_local :
  fst (Part000.handler_body test_env 0 (HealthRoute.route test_env) health_request tt
         (world_at 10 backend_up))
  = Ret (mkResponse 200 (ApiOk {| HealthRoute.backendHealth := "Backend is healthy";
                                  HealthRoute.frontendHealth := "local" |})).
Proof. reflexivity. Qed.

(* ------------------------------------------------------------------ *)
(** ** Timing of the completed-request line *)

(** The logged time of any invocation is its completion time minus the
    time at which the route was wrapped. *)
Lemma Part001_completed_line {T U} (env : Env) (rh : NextRouteHandler T U)
  (w0 : world) (req : request) (ctx : U) (w : world) (r : response T) (w2 : world) :
  try_catch (rh req ctx) (buildErrorResponse env)
    (snd (logger env Info (Incoming (method req) (pathname req)) w)) = (Ret r, w2) ->
  Part001.handler env rh w0 =
    (Ret (Part001.handler_body env (now w0) rh), w0) /\
  Part001.handler_body env (now w0) rh req ctx w =
    (Ret r, snd (logger env Info
                   (Completed (method req) (pathname req) (status r) (now w2 - now w0)) w2)).
Proof.
  intro H; split; [reflexivity |].
  rewrite Part001_invoke, H; reflexivity.
Qed.

(** C8 (code_bug): [startTime] is read once, when [handler] wraps the
    route, not per request.  The route is wrapped at time 0; a request
    arrives at time 1000 and its inner handler takes 5 ms; both wrappers
    log 1005 ms, not 5. *)
Theorem elapsed_time_counts_from_wrap_time :
  (exists h,
     Part001.handler dev_env (slow_ok 5) (world_at 0 backend_up) =
       (Ret h, world_at 0 backend_up) /\
     out (snd (h health_request tt (world_at 1000 backend_up))) =
       [Line Info (Incoming "GET" "/api/health");
        Line Info (Completed "GET" "/api/health" 200 1005)]) /\
  (exists h,
     Part000.handler dev_env (slow_ok 5) (world_at 0 backend_up) =
       (Ret h, world_at 0 backend_up) /\
     nth_error (out (snd (h health_request tt (world_at 1000 backend_up)))) 1 =
       Some (Line Info (Completed "GET" "/api/health" 200 1005))).
Proof. split; eexists; split; reflexivity. Qed.

(* ------------------------------------------------------------------ *)
(** ** Quiet logging in test mode *)

(** In test mode the [logger] writes nothing. *)
Lemma logger_quiet_in_test (env : Env) (s : severity) (e : logentry) (w : world) :
  NODE_ENV env = "test" -> logger env s e w = (Ret tt, w).
Proof. intro H; unfold logger; rewrite H; reflexivity. Qed.

(** Outside test mode it writes the line. *)
Lemma logger_writes_otherwise (env : Env) (s : severity) (e : logentry) (w : world) :
  String.eqb (NODE_ENV env) "test" = false ->
  logger env s e w = (Ret tt, emit w (Line s e)).
Proof. intro H; unfold logger; rewrite H; reflexivity. Qed.

(** C9 (code_bug): with [NODE_ENV] = ["test"] and the backend refusing
    connections, a request to [GET /api/health] still writes output: the
    prober logs with [console.error] instead of the quiet [logger], once for
    the route's probe and once for the wrapper's. *)
Theorem test_mode_probe_failure_is_logged :
  NODE_ENV test_env = "test" /\
  out (snd (Part000.handler_body test_env 0 (HealthRoute.route test_env)
              health_request tt (world_at 0 backend_down))) =
    [Line Error (ProbeFailed econnrefused); Line Error (ProbeFailed econnrefused)] /\
  out (snd (checkBackendHealth test_env (world_at 0 backend_down))) =
    [Line Error (ProbeFailed econnrefused)].
Proof. repeat split. Qed.

(** The lines that go through [logger] are silent in test mode: with the
    backend up nothing is written. *)
Example test_mode_quiet_when_backend_up :
  out (snd (Part000.handler_body test_env 0 (HealthRoute.route test_env)
              health_request tt (world_at 0 backend_up))) = [].
Proof. reflexivity. Qed.

(* ------------------------------------------------------------------ *)
(** ** The extra probe of part_000's wrapper *)

(** C10 fails as stated: when the inner handler throws a framework signal,
    part_000's wrapper re-raises it before the completed line and makes no
    probe. *)
Lemma part000_no_probe_on_reraise :
  let r := Part000.handler_body dev_env 0
             (throwing not_found_error : NextRouteHandler unit unit)
             health_request tt (world_at 0 backend_up) in
  fst r = Raise not_found_error /\ fetched (snd r) = [].
Proof. split; reflexivity. Qed.

(** C10 (amended): every invocation of part_000's wrapper that reaches a
    response (the inner handler returned, or threw a value the classifier
    answered) runs the steps of part_001's wrapper, then calls
    [checkBackendHealth] once (one more GET to the backend), logs its
    verdict and returns the response unchanged; an invocation that raises
    raises the same value with no probe. *)
Theorem part000_probe_after_response {T U} (env : Env) (st : Z)
  (rh : NextRouteHandler T U) (req : request) (ctx : U) (w : world) :
  match Part001.handler_body env st rh req ctx w with
  | (Ret r, w1) =>
      exists v w2,
        checkBackendHealth env w1 = (Ret v, w2) /\
        fetched w2 =
          (fetched w1 ++ [String.append (NEXT_PUBLIC_BACKEND_URL env) "/backend-health"])%list /\
        Part000.handler_body env st rh req ctx w =
          (Ret r, snd (logger env Info
                         (BackendVerdict (String.eqb v "Backend is healthy")
                            (method req) (pathname req) v) w2))
  | (Raise e, w1) => Part000.handler_body env st rh req ctx w = (Raise e, w1)
  end.
Proof.
  rewrite Part000_invoke.
  destruct (Part001.handler_body env st rh req ctx w) as [[r | e] w1]; [| reflexivity].
  exists (verdict_of (net w1 (length (fetched w1)))), (probe_world env w1).
  split; [apply checkBackendHealth_run |].
  split; [apply probe_world_fetched | reflexivity].
Qed.

(* ------------------------------------------------------------------ *)
(** ** [checkFrontendHealth] *)

Lemma fetch_with_body_run (bodies : nat -> body_reply) (url : string) (w : world) :
  fetch_with_body bodies url w =
  match net w (length (fetched w)) with
  | NetStatus st lat =>
      (Ret (mkFetchResponse st, bodies (length (fetched w))),
       advance (record_fetch w url) lat)
  | NetFail err lat => (Raise err, advance (record_fetch w url) lat)
  end.
Proof.
  unfold fetch_with_body, fetch; destruct (net w (length (fetched w))); reflexivity.
Qed.

(** [checkFrontendHealth] never raises and issues exactly one GET, to
    [<NEXT_PUBLIC_BACKEND_URL>/frontend-health]. *)
Theorem checkFrontendHealth_one_get_no_raise (env : Env) (bodies : nat -> body_reply)
  (w : world) :
  exists v w',
    checkFrontendHealth env bodies w = (Ret v, w') /\
    fetched w' =
      (fetched w ++ [String.append (NEXT_PUBLIC_BACKEND_URL env) "/frontend-health"])%list.
Proof.
  unfold checkFrontendHealth, try_catch, bind at 1.
  rewrite fetch_with_body_run.
  destruct (net w (length (fetched w))) as [st lat | err lat].
  - simpl; unfold bind.
    destruct (bodies (length (fetched w))) as [j | e]; simpl.
    + destruct j; simpl; do 2 eexists; split; reflexivity.
    + do 2 eexists; split; reflexivity.
  - simpl; do 2 eexists; split; reflexivity.
Qed.

(** Whatever the HTTP status of the reply (a 503 included), when its body is
    a JSON object the result is that object's [frontend_health] member (the
    last one when repeated), [undefined] when it has none, and nothing is
    logged. *)
Theorem checkFrontendHealth_reads_member_ignoring_status (env : Env)
  (bodies : nat -> body_reply) (w : world) (st lat : Z)
  (members : list (string * json)) :
  net w (length (fetched w)) = NetStatus st lat ->
  bodies (length (fetched w)) = BodyJson (JObj members) ->
  fst (checkFrontendHealth env bodies w) =
    Ret (match member_last "frontend_health" members with
         | Some v => JVal v
         | None => Undefined
         end) /\
  out (snd (checkFrontendHealth env bodies w)) = out w.
Proof.
  intros Hn Hb.
  unfold checkFrontendHealth, try_catch, bind.
  rewrite fetch_with_body_run, Hn; simpl; rewrite Hb; simpl.
  split; reflexivity.
Qed.

Lemma checkFrontendHealth_reads_member_ignoring_status_witness :
  let bodies := fun _ : nat => BodyJson (JObj [("status", JStr "ok");
                                               ("frontend_health", JBool true)]) in
  let w := world_at 0 (fun _ => NetStatus 503 2) in
  (net w (length (fetched w)) = NetStatus 503 2 /\
   bodies (length (fetched w)) =
     BodyJson (JObj [("status", JStr "ok"); ("frontend_health", JBool true)])) /\
  fst (checkFrontendHealth dev_env bodies w) = Ret (JVal (JBool true)).
Proof.
  cbv zeta; split; [split; reflexivity |].
  apply (checkFrontendHealth_reads_member_ignoring_status dev_env _ _ 503 2
           [("status", JStr "ok"); ("frontend_health", JBool true)]); reflexivity.
Defined.

(** A transport failure, a body that is not JSON, or a JSON [null] body
    (reading a property of [null] throws) all give [false] and one
    ["Error checking frontend health:"] line on stderr, in every mode. *)
Theorem checkFrontendHealth_failure_false (env : Env) (bodies : nat -> body_reply)
  (w : world) (e : thrown) :
  (exists lat, net w (length (fetched w)) = NetFail e lat) \/
  (exists st lat, net w (length (fetched w)) = NetStatus st lat /\
     (bodies (length (fetched w)) = BodyInvalid e \/
      (bodies (length (fetched w)) = BodyJson JNull /\ e = null_property_error))) ->
  fst (checkFrontendHealth env bodies w) = Ret (JVal (JBool false)) /\
  out (snd (checkFrontendHealth env bodies w)) =
    (out w ++ [Line Error (FrontendProbeFailed e)])%list.
Proof.
  unfold checkFrontendHealth, try_catch, bind.
  rewrite fetch_with_body_run.
  intros [[lat Hn] | (st & lat & Hn & [Hb | [Hb ->]])]; rewrite Hn; simpl;
    [split; reflexivity | |];
    rewrite Hb; simpl; split; reflexivity.
Qed.

Lemma checkFrontendHealth_failure_false_witness :
  ((exists lat, net (world_at 0 backend_down) 0 = NetFail econnrefused lat) \/
   (exists st lat, net (world_at 0 backend_down) 0 = NetStatus st lat /\
      (BodyJson JNull = BodyInvalid econnrefused \/
       (BodyJson JNull = BodyJson JNull /\ econnrefused = null_property_error)))) /\
  fst (checkFrontendHealth test_env (fun _ => BodyJson JNull) (world_at 0 backend_down))
    = Ret (JVal (JBool false)).
Proof.
  split; [left; exists 1; reflexivity |].
  apply (checkFrontendHealth_failure_false test_env (fun _ => BodyJson JNull)
           (world_at 0 backend_down) econnrefused).
  left; exists 1; reflexivity.
Defined.

(* ------------------------------------------------------------------ *)
(** ** More of the classifier *)

(** A thrown value that is not an [Error] (a plain object, a string) is
    never taken for a framework signal, even with a [NEXT_] digest: it is
    logged as unhandled and answered with 500. *)
Theorem non_error_never_reraised {T} (env : Env) (err : thrown) (w : world) :
  instanceof_Error err = false ->
  @buildErrorResponse T env err w =
    (Ret (mkResponse 500 (ApiErr "Internal server error" None)),
     snd (logger env Error (Unhandled err) w)).
Proof.
  intro H.
  assert (Hc : th_class err = JsPlain).
  { unfold instanceof_Error in H; destruct (th_class err); congruence. }
  apply buildErrorResponse_unknown_run;
    unfold isNextJsError, instanceof_ZodError, isApiError;
    [rewrite H | rewrite Hc | rewrite Hc]; reflexivity.
Qed.

Lemma non_error_never_reraised_witness :
  let err := mkThrown JsPlain (Some (PropString "NEXT_REDIRECT")) "" 0 [] in
  instanceof_Error err = false /\
  fst (@buildErrorResponse unit dev_env err (world_at 0 backend_up)) =
    Ret (mkResponse 500 (ApiErr "Internal server error" None)).
Proof.
  cbv zeta; split; [reflexivity |].
  rewrite (non_error_never_reraised dev_env
             (mkThrown JsPlain (Some (PropString "NEXT_REDIRECT")) "" 0 [])
             (world_at 0 backend_up) eq_refl).
  reflexivity.
Defined.

(** An [ApiError] status the [Response] constructor accepts goes through
    its [unsigned short] conversion: the response status is the error's
    status modulo 65536 (status 65736 is answered with 200). *)
Theorem api_error_status_modulo {T} (env : Env) (err : thrown) (w : world) :
  isApiError err = true -> isNextJsError err = false ->
  status_accepted (th_status err) = true ->
  @buildErrorResponse T env err w =
    (Ret (mkResponse (th_status err mod 65536) (ApiErr (th_message err) None)), w).
Proof.
  intros Ha Hn Hacc.
  assert (Hz : instanceof_ZodError err = false).
  { unfold isApiError in Ha; unfold instanceof_ZodError;
      destruct (th_class err); congruence. }
  unfold buildErrorResponse; rewrite Hn, Hz, Ha.
  apply NextResponse_json_accepted; [reflexivity | exact Hacc].
Qed.

Lemma api_error_status_modulo_witness :
  let err := with_status (new_ApiError None) 65736 in
  (isApiError err = true /\ isNextJsError err = false /\
   status_accepted (th_status err) = true) /\
  @buildErrorResponse unit dev_env err (world_at 0 backend_up) =
    (Ret (mkResponse 200 (ApiErr "Internal Error" None)), world_at 0 backend_up).
Proof.
  cbv zeta; split; [repeat split |].
  apply (api_error_status_modulo dev_env (with_status (new_ApiError None) 65736)
           (world_at 0 backend_up)); reflexivity.
Defined.

(* ------------------------------------------------------------------ *)
(** ** Output of the wrapper *)

Lemma buildErrorResponse_quiet_in_test {T} (env : Env) (err : thrown) (w : world) :
  NODE_ENV env = "test" -> snd (@buildErrorResponse T env err w) = w.
Proof.
  intro Ht; unfold buildErrorResponse.
  destruct (isNextJsError err); [reflexivity |].
  destruct (instanceof_ZodError err);
    [| destruct (isApiError err); [| unfold bind; rewrite logger_quiet_in_test by exact Ht]];
    unfold NextResponse_json; simpl;
    repeat match goal with
           | |- context [if ?b then _ else _] => destruct b
           | |- context [match issues_json_error ?l with _ => _ end] =>
               destruct (issues_json_error l)
           end;
    reflexivity.
Qed.

(** With [NODE_ENV] = ["test"], part_001's wrapper writes nothing of its
    own: the output after an invocation is the output of the inner handler,
    whether it returned or threw (the classifier is silent too). *)
Theorem part001_silent_in_test {T U} (env : Env) (st : Z) (rh : NextRouteHandler T U)
  (req : request) (ctx : U) (w : world) (o : outcome (response T)) (w2 : world) :
  NODE_ENV env = "test" ->
  rh req ctx w = (o, w2) ->
  out (snd (Part001.handler_body env st rh req ctx w)) = out w2.
Proof.
  intros Ht Hrh; rewrite Part001_invoke.
  rewrite logger_quiet_in_test by exact Ht; simpl.
  destruct o as [r | e].
  - rewrite (try_catch_ret _ _ _ r w2 Hrh).
    rewrite logger_quiet_in_test by exact Ht; reflexivity.
  - rewrite (try_catch_raise _ _ _ e w2 Hrh).
    pose proof (buildErrorResponse_quiet_in_test (T:=T) env e w2 Ht) as Hq.
    destruct (buildErrorResponse env e w2) as [[r | e'] w3]; simpl in Hq; subst w3;
      [rewrite logger_quiet_in_test by exact Ht |]; reflexivity.
Qed.

Lemma part001_silent_in_test_witness :
  (NODE_ENV test_env = "test" /\
   (throwing econnrefused : NextRouteHandler unit unit) health_request tt
     (world_at 0 backend_up) = (Raise econnrefused, world_at 0 backend_up)) /\
  out (snd (Part001.handler_body test_env 0
              (throwing econnrefused : NextRouteHandler unit unit)
              health_request tt (world_at 0 backend_up))) = [].
Proof.
  split; [split; reflexivity |].
  apply (part001_silent_in_test test_env 0 (throwing econnrefused) health_request tt
           (world_at 0 backend_up) (Raise econnrefused) (world_at 0 backend_up));
    reflexivity.
Defined.

(** Outside test mode, when the inner handler returns, part_001's wrapper
    writes the incoming line before the inner handler runs and the
    completed line (its status, the time since [startTime]) after all of
    the inner handler's output. *)
Theorem part001_log_bracket {T U} (env : Env) (st : Z) (rh : NextRouteHandler T U)
  (req : request) (ctx : U) (w : world) (r : response T) (w2 : world) :
  String.eqb (NODE_ENV env) "test" = false ->
  rh req ctx (emit w (Line Info (Incoming (method req) (pathname req)))) = (Ret r, w2) ->
  Part001.handler_body env st rh req ctx w =
    (Ret r, emit w2 (Line Info (Completed (method req) (pathname req) (status r)
                                          (now w2 - st)))).
Proof.
  intros Ht Hrh; rewrite Part001_invoke.
  rewrite logger_writes_otherwise by exact Ht; simpl.
  rewrite (try_catch_ret _ _ _ r w2 Hrh).
  rewrite logger_writes_otherwise by exact Ht; reflexivity.
Qed.

Lemma part001_log_bracket_witness :
  (String.eqb (NODE_ENV dev_env) "test" = false /\
   slow_ok 5 health_request tt
     (emit (world_at 0 backend_up) (Line Info (Incoming "GET" "/api/health"))) =
   (Ret (mkResponse 200 (ApiOk tt)),
    advance (emit (world_at 0 backend_up) (Line Info (Incoming "GET" "/api/health"))) 5)) /\
  out (snd (Part001.handler_body dev_env 0 (slow_ok 5 : NextRouteHandler unit unit)
              health_request tt (world_at 0 backend_up))) =
    [Line Info (Incoming "GET" "/api/health");
     Line Info (Completed "GET" "/api/health" 200 5)].
Proof.
  split; [split; reflexivity |].
  rewrite (part001_log_bracket dev_env 0 (slow_ok 5) health_request tt
             (world_at 0 backend_up) (mkResponse 200 (ApiOk tt))
             (advance (emit (world_at 0 backend_up)
                        (Line Info (Incoming "GET" "/api/health"))) 5)
             eq_refl eq_refl).
  reflexivity.
Defined.

(** Outside test mode, an unhandled failure of the inner handler is
    reported in this order: the incoming line, ["Unhandled API Error"] with
    the value, then the completed line with status 500. *)
Theorem part001_unhandled_log_order {T U} (env : Env) (st : Z) (err : thrown)
  (req : request) (ctx : U) (w : world) :
  String.eqb (NODE_ENV env) "test" = false ->
  isNextJsError err = false -> instanceof_ZodError err = false ->
  isApiError err = false ->
  out (snd (Part001.handler_body env st (throwing err : NextRouteHandler T U) req ctx w)) =
    (out w ++ [Line Info (Incoming (method req) (pathname req));
               Line Error (Unhandled err);
               Line Info (Completed (method req) (pathname req) 500 (now w - st))])%list.
Proof.
  intros Ht H1 H2 H3.
  rewrite Part001_invoke_throwing.
  rewrite logger_writes_otherwise by exact Ht; simpl.
  rewrite buildErrorResponse_unknown_run by assumption.
  rewrite logger_writes_otherwise by exact Ht; simpl.
  rewrite logger_writes_otherwise by exact Ht; simpl.
  rewrite <- !app_assoc; reflexivity.
Qed.

Lemma part001_unhandled_log_order_witness :
  (String.eqb (NODE_ENV dev_env) "test" = false /\
   isNextJsError econnrefused = false /\ instanceof_ZodError econnrefused = false /\
   isApiError econnrefused = false) /\
  out (snd (Part001.handler_body dev_env 0
              (throwing econnrefused : NextRouteHandler unit unit)
              health_request tt (world_at 7 backend_up))) =
    [Line Info (Incoming "GET" "/api/health");
     Line Error (Unhandled econnrefused);
     Line Info (Completed "GET" "/api/health" 500 7)].
Proof.
  split; [repeat split |].
  apply (part001_unhandled_log_order dev_env 0 econnrefused health_request tt
           (world_at 7 backend_up)); reflexivity.
Defined.

(* ------------------------------------------------------------------ *)
(** ** Probes per request of [GET /api/health] *)

Lemma route_run {U} (env : Env) (req : request) (ctx : U) (w : world) :
  HealthRoute.route env req ctx w =
  (Ret (mkResponse 200
          (ApiOk {| HealthRoute.backendHealth := verdict_of (net w (length (fetched w)));
                    HealthRoute.frontendHealth := substring 0 7 (HealthRoute.gitSha env) |})),
   probe_world env w).
Proof.
  unfold HealthRoute.route, bind; rewrite checkBackendHealth_run; reflexivity.
Qed.

(** Outside test mode, one request to [GET /api/health] sends two GETs to
    [/backend-health]: the route's, whose verdict goes into the response,
    and part_000's wrapper's, whose verdict is the last line logged.  The two
    verdicts come from different replies and can disagree. *)
Theorem GET_two_backend_probes {U} (env : Env) (st : Z) (req : request) (ctx : U)
  (w : world) :
  String.eqb (NODE_ENV env) "test" = false ->
  let url := String.append (NEXT_PUBLIC_BACKEND_URL env) "/backend-health" in
  let v1 := verdict_of (net w (length (fetched w))) in
  let v2 := verdict_of (net w (S (length (fetched w)))) in
  let r := Part000.handler_body env st (HealthRoute.route env) req ctx w in
  fst r = Ret (mkResponse 200
                 (ApiOk {| HealthRoute.backendHealth := v1;
                           HealthRoute.frontendHealth :=
                             substring 0 7 (HealthRoute.gitSha env) |})) /\
  fetched (snd r) = (fetched w ++ [url; url])%list /\
  exists pre, out (snd r) =
    (pre ++ [Line Info (BackendVerdict (String.eqb v2 "Backend is healthy")
                          (method req) (pathname req) v2)])%list.
Proof.
  intros Ht url v1 v2 r; subst r.
  rewrite Part000_invoke, Part001_invoke.
  rewrite logger_writes_otherwise by exact Ht.
  rewrite (try_catch_ret _ _ _ _ _ (route_run env req ctx _)).
  repeat rewrite logger_writes_otherwise by exact Ht.
  simpl.
  destruct (probe_world_fetched env (emit w (Line Info (Incoming (method req) (pathname req)))))
    as [F1 N1].
  set (w1 := probe_world env (emit w (Line Info (Incoming (method req) (pathname req))))) in *.
  set (w2 := emit w1 _).
  destruct (probe_world_fetched env w2) as [F2 N2].
  assert (Ew2 : fetched w2 = (fetched w ++ [url])%list /\ net w2 = net w).
  { subst w2; simpl; rewrite F1, N1; split; reflexivity. }
  destruct Ew2 as [Fw2 Nw2].
  split; [reflexivity |].
  rewrite logger_writes_otherwise by exact Ht; simpl.
  assert (V : verdict_of (net w1 (length (fetched w1))) = v2).
  { rewrite N1, F1; simpl; rewrite length_app; simpl.
    rewrite Nat.add_1_r; reflexivity. }
  rewrite V.
  split.
  - rewrite F2, Fw2, <- app_assoc; reflexivity.
  - eexists; reflexivity.
Qed.

Lemma GET_two_backend_probes_witness :
  let flaky := fun n : nat => match n with O => NetStatus 200 3 | _ => NetFail econnrefused 1 end in
  String.eqb (NODE_ENV dev_env) "test" = false /\
  fetched (snd (Part000.handler_body dev_env 0 (HealthRoute.route dev_env) health_request tt
                  (world_at 0 flaky))) =
    ["http://backend:8000/backend-health"; "http://backend:8000/backend-health"].
Proof.
  cbv zeta; split; [reflexivity |].
  apply (GET_two_backend_probes dev_env 0 health_request tt
           (world_at 0 (fun n : nat => match n with O => NetStatus 200 3
                                      | _ => NetFail econnrefused 1 end)));
    reflexivity.
Defined.

(** The route answers "healthy" while the wrapper logs "unhealthy" when the
    backend fails between the two probes. *)
Example GET_probes_disagree :
  let flaky := fun n : nat => match n with O => NetStatus 200 3 | _ => NetFail econnrefused 1 end in
  let r := Part000.handler_body dev_env 0 (HealthRoute.route dev_env) health_request tt
             (world_at 0 flaky) in
  fst r = Ret (mkResponse 200 (ApiOk {| HealthRoute.backendHealth := "Backend is healthy";
                                        HealthRoute.frontendHealth := "3f9c2ab" |})) /\
  last (out (snd r)) (Line Info (Incoming "" "")) =
    Line Info (BackendVerdict false "GET" "/api/health" "Backend is unhealthy").
Proof. split; reflexivity. Qed.
